(** * easyspeak: the GNOME Shell side (src/extension.js)

    A shallow embedding of the classes [GridOverlay], [WindowManager] and
    of the D-Bus dispatch table of [EasySpeakGridExtension.enable].

    The JavaScript objects mutated by the methods become records threaded
    through a small state-and-exception monad; calls into GNOME Shell
    (Clutter virtual pointer, St widgets, Meta windows and workspaces)
    become either reads of an environment record or entries appended to an
    effect trace.  Times are in microseconds, as [GLib.get_monotonic_time]
    returns them. *)

From Stdlib Require Import ZArith Bool List String Ascii Lia QArith Qminmax Qround Lqa.
Import ListNotations.
Open Scope Z_scope.

(** ** Geometry *)

(** A rectangle as Mutter hands it out ([monitor], [workArea]). *)
Record rect := mkRect { rx : Z; ry : Z; rw : Z; rh : Z }.

(** An object with [x], [y], [width] and [height] holding JavaScript
    numbers, such as [this.workArea] would be.  Finite numbers are taken as
    rationals. *)
Record qrect := mkQRect { qx : Q; qy : Q; qwidth : Q; qheight : Q }.

(** ** Clutter constants *)

Inductive button := BUTTON_PRIMARY | BUTTON_MIDDLE | BUTTON_SECONDARY.
Inductive button_state := PRESSED | RELEASED.

(** Effects observable outside the extension, in the order they happen. *)
Inductive effect :=
| ContainerDestroyed                              (* container.destroy() *)
| ContainerAdded (r : rect)                       (* Main.uiGroup.add_child *)
| AbsoluteMotion (t x y : Z)                      (* pointer.notify_absolute_motion *)
| ButtonEvent (t : Z) (b : button) (s : button_state) (* pointer.notify_button *)
| ScrollContinuous (t dx dy : Z).                 (* pointer.notify_scroll_continuous *)

(** ** The fields of a [GridOverlay] object *)

Record grid := mkGrid {
  container : option rect;        (* this.container: null or the St.Widget *)
  bounds : Z * Z * Z * Z;         (* this.bounds *)
  screenW : Z;                    (* this.screenW *)
  screenH : Z;                    (* this.screenH *)
  workArea : option qrect;        (* this.workArea *)
  pointer : bool;                 (* this._pointer is set *)
  dragging : bool;                (* this._dragging *)
  trace : list effect             (* effects emitted so far *)
}.

(** [new GridOverlay()] *)
Definition new_GridOverlay : grid :=
  mkGrid None (0, 0, 1920, 1080) 1920 1080 None false false [].

(** What a call reads from GNOME Shell: [Main.layoutManager.primaryMonitor],
    [GLib.get_monotonic_time()] and whether
    [seat.create_virtual_device(POINTER_DEVICE)] succeeds when called. *)
Record env := mkEnv {
  primaryMonitor : rect;
  monotonic_time : Z;
  create_virtual_device_ok : bool
}.

(** ** A state and exception monad

    A thrown exception keeps the state reached so far: JavaScript does not
    roll back the mutations done before the throw. *)

Inductive result (A : Type) :=
| Ok (a : A) (g : grid)
| Throw (g : grid).
Arguments Ok {A}.
Arguments Throw {A}.

Definition M (A : Type) := grid -> result A.

Definition ret {A} (a : A) : M A := fun g => Ok a g.
Definition bind {A B} (m : M A) (k : A -> M B) : M B :=
  fun g => match m g with
           | Ok a g' => k a g'
           | Throw g' => Throw g'
           end.
Definition throw {A} : M A := fun g => Throw g.
Definition get : M grid := fun g => Ok g g.
Definition put (g : grid) : M unit := fun _ => Ok tt g.
Definition modify (f : grid -> grid) : M unit := fun g => Ok tt (f g).

Notation "x <- m ;; k" := (bind m (fun x => k))
  (at level 61, m at next level, right associativity).
Notation "m ;;; k" := (bind m (fun _ => k))
  (at level 61, right associativity).

(** Field updates. *)
Definition set_container (c : option rect) (g : grid) : grid :=
  mkGrid c (bounds g) (screenW g) (screenH g) (workArea g) (pointer g) (dragging g) (trace g).
Definition set_bounds (b : Z * Z * Z * Z) (g : grid) : grid :=
  mkGrid (container g) b (screenW g) (screenH g) (workArea g) (pointer g) (dragging g) (trace g).
Definition set_screen (w h : Z) (g : grid) : grid :=
  mkGrid (container g) (bounds g) w h (workArea g) (pointer g) (dragging g) (trace g).
Definition set_pointer (p : bool) (g : grid) : grid :=
  mkGrid (container g) (bounds g) (screenW g) (screenH g) (workArea g) p (dragging g) (trace g).
Definition set_dragging (d : bool) (g : grid) : grid :=
  mkGrid (container g) (bounds g) (screenW g) (screenH g) (workArea g) (pointer g) d (trace g).
Definition emit (e : effect) : M unit :=
  modify (fun g => mkGrid (container g) (bounds g) (screenW g) (screenH g)
                          (workArea g) (pointer g) (dragging g) (trace g ++ [e])).

(** ** [GridOverlay] methods *)

Module GridOverlay.

(** [_getPointer()]: create the virtual device when [this._pointer] is
    unset.  A failing creation escapes as an exception and leaves
    [this._pointer] unset. *)
Definition _getPointer (e : env) : M unit :=
  g <- get ;;
  if pointer g then ret tt
  else if create_virtual_device_ok e then modify (set_pointer true)
  else throw.

(** [hide()] *)
Definition hide : M unit :=
  g <- get ;;
  match container g with
  | Some _ => emit ContainerDestroyed ;;; modify (set_container None)
  | None => ret tt
  end.

(** [show(width, height)]: [width] and [height] are not read.  The drawing
    of the grid into the new container ([_draw]) only adds children to it
    and is not modelled. *)
Definition show (e : env) (width height : Z) : M unit :=
  g <- get ;;
  (match container g with Some _ => hide | None => ret tt end) ;;;
  let monitor := primaryMonitor e in
  modify (set_screen (rw monitor) (rh monitor)) ;;;
  g1 <- get ;;
  modify (set_bounds (0, 0, screenW g1, screenH g1)) ;;;
  let c := mkRect (rx monitor) (ry monitor) (screenW g1) (screenH g1) in
  modify (set_container (Some c)) ;;;
  emit (ContainerAdded c).

(** [getScreenSize()] *)
Definition getScreenSize (e : env) : M (Z * Z) :=
  let monitor := primaryMonitor e in
  ret (rw monitor, rh monitor).

(** [update(x, y, width, height)] *)
Definition update (x y width height : Z) : M unit :=
  g <- get ;;
  match container g with
  | None => ret tt
  | Some _ => modify (set_bounds (x, y, width, height))
  end.

(** [click(x, y)] *)
Definition click (e : env) (x y : Z) : M unit :=
  hide ;;;
  _getPointer e ;;;
  let t := monotonic_time e in
  emit (AbsoluteMotion t x y) ;;;
  emit (ButtonEvent (t + 5000) BUTTON_PRIMARY PRESSED) ;;;
  emit (ButtonEvent (t + 10000) BUTTON_PRIMARY RELEASED).

(** [doubleClick(x, y)] *)
Definition doubleClick (e : env) (x y : Z) : M unit :=
  hide ;;;
  _getPointer e ;;;
  let t := monotonic_time e in
  emit (AbsoluteMotion t x y) ;;;
  emit (ButtonEvent (t + 5000) BUTTON_PRIMARY PRESSED) ;;;
  emit (ButtonEvent (t + 10000) BUTTON_PRIMARY RELEASED) ;;;
  emit (ButtonEvent (t + 60000) BUTTON_PRIMARY PRESSED) ;;;
  emit (ButtonEvent (t + 65000) BUTTON_PRIMARY RELEASED).

(** [rightClick(x, y)] *)
Definition rightClick (e : env) (x y : Z) : M unit :=
  hide ;;;
  _getPointer e ;;;
  let t := monotonic_time e in
  emit (AbsoluteMotion t x y) ;;;
  emit (ButtonEvent (t + 5000) BUTTON_SECONDARY PRESSED) ;;;
  emit (ButtonEvent (t + 10000) BUTTON_SECONDARY RELEASED).

(** [middleClick(x, y)] *)
Definition middleClick (e : env) (x y : Z) : M unit :=
  hide ;;;
  _getPointer e ;;;
  let t := monotonic_time e in
  emit (AbsoluteMotion t x y) ;;;
  emit (ButtonEvent (t + 5000) BUTTON_MIDDLE PRESSED) ;;;
  emit (ButtonEvent (t + 10000) BUTTON_MIDDLE RELEASED).

(** [moveTo(x, y)] *)
Definition moveTo (e : env) (x y : Z) : M unit :=
  _getPointer e ;;;
  emit (AbsoluteMotion (monotonic_time e) x y).

(** [startDrag(x, y)]: no hide, no guard on [this._dragging]. *)
Definition startDrag (e : env) (x y : Z) : M unit :=
  _getPointer e ;;;
  let t := monotonic_time e in
  emit (AbsoluteMotion t x y) ;;;
  emit (ButtonEvent (t + 5000) BUTTON_PRIMARY PRESSED) ;;;
  modify (set_dragging true).

(** [endDrag(x, y)] *)
Definition endDrag (e : env) (x y : Z) : M unit :=
  g <- get ;;
  if negb (dragging g) then ret tt
  else
    hide ;;;
    _getPointer e ;;;
    let t := monotonic_time e in
    emit (AbsoluteMotion t x y) ;;;
    emit (ButtonEvent (t + 5000) BUTTON_PRIMARY RELEASED) ;;;
    modify (set_dragging false).

(** The [switch (direction)] of [scroll]: strict equality on the four
    strings, [dx] and [dy] stay 0 otherwise. *)
Definition scroll_delta (direction : string) : Z * Z :=
  let scrollAmount := 1 in
  if String.eqb direction "up" then (0, - scrollAmount)
  else if String.eqb direction "down" then (0, scrollAmount)
  else if String.eqb direction "left" then (- scrollAmount, 0)
  else if String.eqb direction "right" then (scrollAmount, 0)
  else (0, 0).

(** [for (let i = 0; i < clicks; i++)], running the loop from [i] with
    [fuel] iterations left; [clicks] is a D-Bus int32, so the loop runs
    [max 0 clicks] times. *)
Fixpoint scroll_loop (t dx dy : Z) (i : Z) (fuel : nat) : M unit :=
  match fuel with
  | O => ret tt
  | S fuel' =>
      emit (ScrollContinuous (t + i * 50000) dx dy) ;;;
      scroll_loop t dx dy (i + 1) fuel'
  end.

(** [scroll(x, y, direction, clicks)] *)
Definition scroll (e : env) (x y : Z) (direction : string) (clicks : Z) : M unit :=
  hide ;;;
  _getPointer e ;;;
  let t := monotonic_time e in
  emit (AbsoluteMotion t x y) ;;;
  let '(dx, dy) := scroll_delta direction in
  scroll_loop t dx dy 0 (Z.to_nat clicks).

End GridOverlay.

(** ** The D-Bus dispatch of the grid methods ([enable()])

    Each entry forwards to the [GridOverlay] method; there is no state of
    the façade's own and no check around the call. *)

Inductive grid_call :=
| Show (width height : Z)
| Hide
| Update (x y width height : Z)
| Click (x y : Z)
| DoubleClick (x y : Z)
| RightClick (x y : Z)
| MiddleClick (x y : Z)
| MoveTo (x y : Z)
| StartDrag (x y : Z)
| EndDrag (x y : Z)
| Scroll (x y : Z) (direction : string) (clicks : Z)
| GetScreenSize.

(** Replies: nothing, or the two int32 of [GetScreenSize]. *)
Inductive reply := RUnit | RSize (w h : Z).

Definition dispatch (e : env) (c : grid_call) : M reply :=
  match c with
  | Show w h => GridOverlay.show e w h ;;; ret RUnit
  | Hide => GridOverlay.hide ;;; ret RUnit
  | Update x y w h => GridOverlay.update x y w h ;;; ret RUnit
  | Click x y => GridOverlay.click e x y ;;; ret RUnit
  | DoubleClick x y => GridOverlay.doubleClick e x y ;;; ret RUnit
  | RightClick x y => GridOverlay.rightClick e x y ;;; ret RUnit
  | MiddleClick x y => GridOverlay.middleClick e x y ;;; ret RUnit
  | MoveTo x y => GridOverlay.moveTo e x y ;;; ret RUnit
  | StartDrag x y => GridOverlay.startDrag e x y ;;; ret RUnit
  | EndDrag x y => GridOverlay.endDrag e x y ;;; ret RUnit
  | Scroll x y d n => GridOverlay.scroll e x y d n ;;; ret RUnit
  | GetScreenSize => wh <- GridOverlay.getScreenSize e ;; ret (RSize (fst wh) (snd wh))
  end.

(** The calls that drive the virtual pointer. *)
Definition pointer_call (c : grid_call) : bool :=
  match c with
  | Click _ _ | DoubleClick _ _ | RightClick _ _ | MiddleClick _ _
  | MoveTo _ _ | StartDrag _ _ | EndDrag _ _ | Scroll _ _ _ _ => true
  | _ => false
  end.

(** A D-Bus reply: the method's return value, or an error for a thrown
    exception. *)
Inductive dbus_reply := DBusOk (r : reply) | DBusError.

(** Run a sequence of calls, each with the environment it sees, collecting
    the replies. *)
Fixpoint run_calls (calls : list (env * grid_call)) (g : grid) : list dbus_reply * grid :=
  match calls with
  | [] => ([], g)
  | (e, c) :: rest =>
      match dispatch e c g with
      | Ok r g' => let '(rs, g'') := run_calls rest g' in (DBusOk r :: rs, g'')
      | Throw g' => let '(rs, g'') := run_calls rest g' in (DBusError :: rs, g'')
      end
  end.

(** ** [WindowManager]

    A Meta window as the methods read and change it. *)

Inductive window_type := NORMAL | OTHER_TYPE.

Record window := mkWindow {
  win_id : nat;                       (* get_id() *)
  win_type : window_type;             (* get_window_type() *)
  win_title : option string;          (* get_title(), possibly null *)
  win_wm_class : option string;       (* get_wm_class(), possibly null *)
  win_monitor : Z;                    (* get_monitor() *)
  win_frame : rect;                   (* the frame rectangle *)
  win_maximized : bool
}.

(** A reference to a [Meta.Window] object: [===] on windows compares
    references, and a change made through one reference is seen through
    every other. *)
Definition wref := nat.

(** Calls made on Meta objects, in order. *)
Inductive wm_op :=
| Unmaximize (win : wref)
| MoveResizeFrame (win : wref) (user_op : bool) (x y w h : Z)
| Activate (win : wref)
| WorkspaceActivate (index : Z).

(** The compositor state the methods see: the [Meta.Window] objects, by
    reference; [global.get_window_actors()], each actor given by its
    [get_meta_window()] ([None] when that is null);
    [global.display.focus_window], itself a reference to a window object,
    whether or not one of the actors shows it; the work area of each
    monitor and [global.workspace_manager]. *)
Record compositor := mkCompositor {
  windows : wref -> window;
  actors : list (option wref);
  focus_window : option wref;
  workAreaForMonitor : Z -> rect;
  n_workspaces : Z;
  active_workspace_index : Z;
  wm_trace : list wm_op
}.

Definition set_windows (ws : wref -> window) (d : compositor) : compositor :=
  mkCompositor ws (actors d) (focus_window d) (workAreaForMonitor d) (n_workspaces d)
    (active_workspace_index d) (wm_trace d).
Definition set_focus (f : option wref) (d : compositor) : compositor :=
  mkCompositor (windows d) (actors d) f (workAreaForMonitor d) (n_workspaces d)
    (active_workspace_index d) (wm_trace d).
Definition set_active_workspace (i : Z) (d : compositor) : compositor :=
  mkCompositor (windows d) (actors d) (focus_window d) (workAreaForMonitor d) (n_workspaces d)
    i (wm_trace d).
Definition log_op (o : wm_op) (d : compositor) : compositor :=
  mkCompositor (windows d) (actors d) (focus_window d) (workAreaForMonitor d) (n_workspaces d)
    (active_workspace_index d) (wm_trace d ++ [o]).

(** Mutating the window object [win]. *)
Definition update_window (win : wref) (f : window -> window) (d : compositor) : compositor :=
  set_windows (fun r => if Nat.eqb r win then f (windows d win) else windows d r) d.

Definition win_unmaximize (w : window) : window :=
  mkWindow (win_id w) (win_type w) (win_title w) (win_wm_class w) (win_monitor w)
    (win_frame w) false.
Definition win_set_frame (r : rect) (w : window) : window :=
  mkWindow (win_id w) (win_type w) (win_title w) (win_wm_class w) (win_monitor w)
    r (win_maximized w).

(** [win.unmaximize(Meta.MaximizeFlags.BOTH)] *)
Definition unmaximize (win : wref) (d : compositor) : compositor :=
  log_op (Unmaximize win) (update_window win win_unmaximize d).

(** [win.move_resize_frame(user_op, x, y, w, h)] *)
Definition move_resize_frame (win : wref) (user_op : bool) (x y w h : Z) (d : compositor)
  : compositor :=
  log_op (MoveResizeFrame win user_op x y w h)
    (update_window win (win_set_frame (mkRect x y w h)) d).

(** [win.activate(time)] *)
Definition activate (win : wref) (d : compositor) : compositor :=
  log_op (Activate win) (set_focus (Some win) d).

(** *** String helpers of [focusWindow]

    Strings are the UTF-8 bytes of the JavaScript strings (D-Bus strings
    and window titles and classes are UTF-8); a substring of the text is
    a substring of its bytes and conversely.  [String.prototype.toLowerCase]
    is the Unicode lower-case mapping, taken as a parameter [toLowerCase]
    of the definitions that use it. *)

(** [hay.includes(needle)]: [needle] occurs at some position of [hay]. *)
Fixpoint includes (hay needle : string) : bool :=
  match hay with
  | EmptyString => String.prefix needle hay
  | String _ hay' => String.prefix needle hay || includes hay' needle
  end.

Section ToLowerCase.

Context (toLowerCase : string -> string).

(** [win.get_title()?.toLowerCase() || '']: a null title gives
    [undefined], and the empty string is the only falsy string. *)
Definition lower_or_empty (o : option string) : string :=
  match o with
  | None => ""
  | Some s => match toLowerCase s with EmptyString => "" | s' => s' end
  end.

End ToLowerCase.

(** [toLowerCase] on the ASCII letters, a lower-case mapping to run the
    definitions on concrete strings. *)
Definition ascii_lower (c : ascii) : ascii :=
  let n := nat_of_ascii c in
  if andb (Nat.leb 65 n) (Nat.leb n 90) then ascii_of_nat (n + 32) else c.

Fixpoint ascii_toLowerCase (s : string) : string :=
  match s with
  | EmptyString => EmptyString
  | String c s' => String (ascii_lower c) (ascii_toLowerCase s')
  end.

Module WindowManager.

(** [_getFocusedWindow()]: [global.display.focus_window]. *)
Definition _getFocusedWindow (d : compositor) : option wref := focus_window d.

(** [tileLeft()] *)
Definition tileLeft (d : compositor) : compositor :=
  match _getFocusedWindow d with
  | None => d
  | Some win =>
      let monitor := win_monitor (windows d win) in
      let workArea := workAreaForMonitor d monitor in
      let d1 := unmaximize win d in
      move_resize_frame win false (rx workArea) (ry workArea)
        (rw workArea / 2) (rh workArea) d1
  end.

(** [tileRight()] *)
Definition tileRight (d : compositor) : compositor :=
  match _getFocusedWindow d with
  | None => d
  | Some win =>
      let monitor := win_monitor (windows d win) in
      let workArea := workAreaForMonitor d monitor in
      let d1 := unmaximize win d in
      move_resize_frame win false (rx workArea + rw workArea / 2) (ry workArea)
        (rw workArea / 2) (rh workArea) d1
  end.

Definition is_normal (win : window) : bool :=
  match win_type win with NORMAL => true | OTHER_TYPE => false end.

Section ToLowerCase.

Context (toLowerCase : string -> string).

(** The test in the loop of [focusWindow]. *)
Definition matches (lowerTitle : string) (win : window) : bool :=
  let title := lower_or_empty toLowerCase (win_title win) in
  let wmClass := lower_or_empty toLowerCase (win_wm_class win) in
  includes title lowerTitle || includes wmClass lowerTitle.

(** The [for (const actor of actors)] loop of [focusWindow]. *)
Fixpoint focus_loop (lowerTitle : string) (l : list (option wref)) (d : compositor)
  : bool * compositor :=
  match l with
  | [] => (false, d)
  | None :: l' => focus_loop lowerTitle l' d
  | Some win :: l' =>
      if negb (is_normal (windows d win)) then focus_loop lowerTitle l' d
      else if matches lowerTitle (windows d win) then (true, activate win d)
      else focus_loop lowerTitle l' d
  end.

(** [focusWindow(titleSubstring)] *)
Definition focusWindow (titleSubstring : string) (d : compositor) : bool * compositor :=
  let lowerTitle := toLowerCase titleSubstring in
  focus_loop lowerTitle (actors d) d.

End ToLowerCase.

(** [workspaceManager.get_workspace_by_index(index)]: null out of range. *)
Definition get_workspace_by_index (d : compositor) (index : Z) : option Z :=
  if andb (0 <=? index) (index <? n_workspaces d) then Some index else None.

(** [ws.activate(time)] *)
Definition workspace_activate (index : Z) (d : compositor) : compositor :=
  log_op (WorkspaceActivate index) (set_active_workspace index d).

(** [switchWorkspace(index)] *)
Definition switchWorkspace (index : Z) (d : compositor) : compositor :=
  match get_workspace_by_index d index with
  | Some ws => workspace_activate ws d
  | None => d
  end.

(** [nextWorkspace()] *)
Definition nextWorkspace (d : compositor) : compositor :=
  let current := active_workspace_index d in
  let next := Z.min (current + 1) (n_workspaces d - 1) in
  switchWorkspace next d.

(** [prevWorkspace()] *)
Definition prevWorkspace (d : compositor) : compositor :=
  let current := active_workspace_index d in
  let prev := Z.max (current - 1) 0 in
  switchWorkspace prev d.

(** [getWorkspaceCount()] and [getCurrentWorkspace()] *)
Definition getWorkspaceCount (d : compositor) : Z := n_workspaces d.
Definition getCurrentWorkspace (d : compositor) : Z := active_workspace_index d.

End WindowManager.

(** ** The rest of [GridOverlay]: [_clampToWorkArea] and [_draw] *)

Module Overlay.

(** [Math.floor], [Math.min] and [Math.max] on finite JavaScript numbers. *)
Definition Math_floor (q : Q) : Q := inject_Z (Qfloor q).
Definition Math_min (a b : Q) : Q := Qmin a b.
Definition Math_max (a b : Q) : Q := Qmax a b.

Local Open Scope Q_scope.

(** [_clampToWorkArea(x, y, w, h)] *)
Definition _clampToWorkArea (g : grid) (x y w h : Q) : Q * Q * Q * Q :=
  match workArea g with
  | None => (x, y, w, h)
  | Some wa =>
      let newX := Math_max (qx wa) (Math_min x (qx wa + qwidth wa - w)) in
      let newY := Math_max (qy wa) (Math_min y (qy wa + qheight wa - h)) in
      (newX, newY, w, h)
  end.

(** The styles [_draw] gives its widgets. *)
Inductive style :=
| BACKDROP        (* rgba(0,0,0,0.15) *)
| GRID_LINE       (* rgba(255,255,255,0.8) *)
| OUTLINE         (* #ffffff *)
| CROSS.          (* #ff0000 *)

(** A child of the container: an [St.Widget] with its geometry, or an
    [St.Label] with its text, its font size and the position given to
    [set_position].  Coordinates and sizes are JavaScript numbers, taken as
    rationals: [_draw] divides by 2 without rounding. *)
Inductive child :=
| StWidget (st : style) (x y w h : Q)
| StLabel (text : string) (fontSize : Q) (x y : Q).

(** [String(num)] for a digit. *)
Definition digit_string (num : Z) : string :=
  String (ascii_of_nat (48 + Z.to_nat num)%nat) EmptyString.

(** [_draw()]: the children the container holds after
    [destroy_all_children()] and the additions, in order, for the bounds
    [bx, by, bw, bh] read from [this.bounds].  The loop counters [i] and
    [num] are integers. *)
Definition _draw (b : Q * Q * Q * Q) : list child :=
  let '(bx, by_, bw, bh) := b in
  let backdrop := StWidget BACKDROP bx by_ bw bh in
  let cellW := Math_floor (bw / 3) in
  let cellH := Math_floor (bh / 3) in
  let vertical :=
    map (fun i : Z => StWidget GRID_LINE (bx + inject_Z i * cellW - 1) by_ 3 bh) [1; 2]%Z in
  let horizontal :=
    map (fun i : Z => StWidget GRID_LINE bx (by_ + inject_Z i * cellH - 1) bw 3) [1; 2]%Z in
  let fontSize := Math_max 24 (Math_min 72 (Math_floor (Math_min cellW cellH / 3))) in
  let labels :=
    map (fun num : Z =>
           let row := Math_floor (inject_Z (num - 1)%Z / 3) in
           let col := inject_Z ((num - 1) mod 3)%Z in
           let zoneX := bx + col * cellW in
           let zoneY := by_ + row * cellH in
           StLabel (digit_string num) fontSize
             (zoneX + cellW / 2 - fontSize / 2) (zoneY + cellH / 2 - fontSize / 2))
        [1; 2; 3; 4; 5; 6; 7; 8; 9]%Z in
  let centerX := bx + Math_floor (bw / 2) in
  let centerY := by_ + Math_floor (bh / 2) in
  let crossSize := Math_min 50 (Math_floor (Math_min bw bh / 3)) in
  let crossThick := 4 in
  let cross :=
    [StWidget OUTLINE (centerX - crossSize / 2 - 2) (centerY - crossThick / 2 - 2)
       (crossSize + 4) (crossThick + 4);
     StWidget OUTLINE (centerX - crossThick / 2 - 2) (centerY - crossSize / 2 - 2)
       (crossThick + 4) (crossSize + 4);
     StWidget CROSS (centerX - crossSize / 2) (centerY - crossThick / 2) crossSize crossThick;
     StWidget CROSS (centerX - crossThick / 2) (centerY - crossSize / 2) crossThick crossSize] in
  backdrop :: vertical ++ horizontal ++ labels ++ cross.

End Overlay.

(** ** [WindowManager.getWindows]

    The array built before [JSON.stringify]; the serialisation itself is
    not modelled. *)

Record win_info := mkWinInfo {
  info_id : nat;
  info_title : option string;
  info_wm_class : option string;
  info_workspace : Z;
  info_focused : bool
}.

(** [win.get_workspace()?.index()]: the index of the window's workspace,
    [None] when it has none. *)
Definition workspace_of := window -> option Z.

(** The callback of [.map(actor => ...)]: [null] for an actor without a
    window or with a window that is not normal, the record otherwise;
    [focused] is [win === this._getFocusedWindow()], a comparison of
    references. *)
Definition window_record (ws_of : workspace_of) (d : compositor) (focused : option wref)
    (o : option wref) : option win_info :=
  match o with
  | None => None
  | Some r =>
      let win := windows d r in
      if negb (WindowManager.is_normal win) then None
      else Some (mkWinInfo (win_id win) (win_title win) (win_wm_class win)
                   (match ws_of win with Some i => i | None => -1 end)
                   (match focused with
                    | Some f => Nat.eqb r f
                    | None => false
                    end))
  end.

(** [.map(...)] then [.filter(w => w !== null)] over
    [global.get_window_actors()]. *)
Definition getWindows_records (ws_of : workspace_of) (d : compositor) : list win_info :=
  fold_right (fun o acc =>
                match window_record ws_of d (WindowManager._getFocusedWindow d) o with
                | Some r => r :: acc
                | None => acc
                end)
    [] (actors d).

(** ** [ScreenshotManager.takeScreenshotSync] *)

Inductive idle_task := CaptureViaScreenshotClass.

(** The file system at the cache path and the idle sources of the main
    loop. *)
Record shot_state := mkShotState {
  cache_dir_exists : bool;
  screen_png_exists : bool;
  idle_queue : list idle_task
}.

(** [this._cacheDir] and [this._path] for the home directory [home]. *)
Definition cacheDir (home : string) : string := (home ++ "/.cache/easyspeak")%string.
Definition shot_path (home : string) : string := (cacheDir home ++ "/screen.png")%string.

(** [_ensureCacheDir()] *)
Definition _ensureCacheDir (s : shot_state) : shot_state :=
  if cache_dir_exists s then s
  else mkShotState true (screen_png_exists s) (idle_queue s).

(** [takeScreenshotSync()]: [delete_ok] tells whether
    [Gio.File.delete] succeeds.  It fails when there is no file, and can
    fail on an existing one too (permissions, a directory in the way), which
    then stays; the [catch] swallows every failure.  The capture is only
    scheduled. *)
Definition takeScreenshotSync (home : string) (delete_ok : bool) (s : shot_state)
  : string * shot_state :=
  let s1 := if delete_ok then mkShotState (cache_dir_exists s) false (idle_queue s) else s in
  let s2 := mkShotState (cache_dir_exists s1) (screen_png_exists s1)
              (idle_queue s1 ++ [CaptureViaScreenshotClass]) in
  (shot_path home, s2).

(** ** [EasySpeakGridExtension.enable] and [disable] *)

Record extension := mkExtension {
  ext_grid : option grid;        (* this._grid *)
  ext_exported : bool;           (* this._dbus exported *)
  ext_winMgr : bool;             (* this._winMgr set *)
  ext_screenMgr : bool           (* this._screenMgr set *)
}.

(** [enable()]: fresh [GridOverlay], managers, and the export. *)
Definition enable (x : extension) : extension :=
  mkExtension (Some new_GridOverlay) true true true.

(** [disable()], with the effects of the [hide()] it makes. *)
Definition disable (x : extension) : extension * list effect :=
  let effs := match ext_grid x with
              | Some g =>
                  match GridOverlay.hide g with
                  | Ok _ g' => skipn (List.length (trace g)) (trace g')
                  | Throw _ => []
                  end
              | None => []
              end in
  (mkExtension None false false false, effs).

(** ** Auxiliary definitions for the statements *)

(** The effects of [hide()] on an overlay that is [c]. *)
Definition hide_effects (c : option rect) : list effect :=
  match c with Some _ => [ContainerDestroyed] | None => [] end.

(** The virtual device is there or can be created by this call. *)
Definition device_available (e : env) (g : grid) : Prop :=
  pointer g = true \/ create_virtual_device_ok e = true.

(** The first actor showing a normal window, in enumeration order. *)
Fixpoint first_normal (ws : wref -> window) (l : list (option wref)) : option wref :=
  match l with
  | [] => None
  | None :: l' => first_normal ws l'
  | Some r :: l' => if WindowManager.is_normal (ws r) then Some r else first_normal ws l'
  end.

(** A window with its absent title and class replaced by the empty string. *)
Definition absent_as_empty (w : window) : window :=
  mkWindow (win_id w) (win_type w)
    (Some (match win_title w with Some s => s | None => ""%string end))
    (Some (match win_wm_class w with Some s => s | None => ""%string end))
    (win_monitor w) (win_frame w) (win_maximized w).

(** ** Sanity checks on concrete inputs *)

(** One normal window, titled "Mozilla Firefox", shown by the only actor. *)
Definition firefox_only : compositor :=
  mkCompositor (fun _ => mkWindow 7 NORMAL (Some "Mozilla Firefox"%string) None 0
                           (mkRect 0 0 10 10) false)
    [Some 7%nat] None (fun _ => mkRect 0 0 1920 1080) 1 0 [].

Example focus_fire :
  fst (WindowManager.focusWindow ascii_toLowerCase "FIRE" firefox_only) = true.
Proof. reflexivity. Qed.

Example focus_none :
  fst (WindowManager.focusWindow ascii_toLowerCase "zzz-none" firefox_only) = false.
Proof. reflexivity. Qed.

(** ** Tactics *)

Ltac run_grid :=
  cbv [GridOverlay.show GridOverlay.hide GridOverlay._getPointer GridOverlay.click
       GridOverlay.doubleClick GridOverlay.startDrag GridOverlay.endDrag GridOverlay.scroll
       GridOverlay.getScreenSize GridOverlay.moveTo GridOverlay.rightClick
       GridOverlay.middleClick GridOverlay.update
       bind ret get put modify throw emit set_container set_bounds set_screen
       set_pointer set_dragging device_available hide_effects] in *;
  cbn -[Z.add Z.mul] in *.

Ltac close_trace :=
  repeat split; cbn -[Z.add Z.mul]; rewrite <- ?app_assoc; reflexivity.

Ltac destruct_grid g :=
  destruct g as [[?c|] ? ? ? ? [|] [|] ?tr].

(** ** Claims about [GridOverlay] *)

(** C1: whatever [width] and [height] are given, [show] takes the screen
    size, the bounds and the container geometry from the primary monitor;
    [getScreenSize] reads the primary monitor live, in any state, also the
    one [show] leaves. *)
Theorem show_ignores_requested_size :
  forall (e : env) (width height : Z) (g : grid),
    let m := primaryMonitor e in
    (forall width' height', GridOverlay.show e width height g = GridOverlay.show e width' height' g) /\
    (exists g', GridOverlay.show e width height g = Ok tt g' /\
       screenW g' = rw m /\ screenH g' = rh m /\
       bounds g' = (0, 0, rw m, rh m) /\
       container g' = Some (mkRect (rx m) (ry m) (rw m) (rh m)) /\
       (forall e', GridOverlay.getScreenSize e' g' =
                   Ok (rw (primaryMonitor e'), rh (primaryMonitor e')) g')) /\
    (forall e' g0, GridOverlay.getScreenSize e' g0 =
                   Ok (rw (primaryMonitor e'), rh (primaryMonitor e')) g0).
Proof.
  intros e width height g m.
  split; [reflexivity|]. split; [|reflexivity].
  destruct_grid g; run_grid; eexists; repeat split; reflexivity.
Qed.

(** C2: from a state without a drag, [startDrag] then [endDrag] emits one
    motion and one primary press, then (after hiding the overlay, and only
    then) one motion and one primary release; [startDrag] leaves the overlay
    as it is and sets the drag flag, [endDrag] removes the overlay and
    clears the flag. *)
Theorem startDrag_endDrag_sequence :
  forall (e1 e2 : env) (x1 y1 x2 y2 : Z) (g : grid),
    dragging g = false -> device_available e1 g ->
    let t1 := monotonic_time e1 in
    let t2 := monotonic_time e2 in
    exists g1 g2,
      GridOverlay.startDrag e1 x1 y1 g = Ok tt g1 /\
      container g1 = container g /\ dragging g1 = true /\
      trace g1 = trace g ++ [AbsoluteMotion t1 x1 y1;
                             ButtonEvent (t1 + 5000) BUTTON_PRIMARY PRESSED] /\
      GridOverlay.endDrag e2 x2 y2 g1 = Ok tt g2 /\
      container g2 = None /\ dragging g2 = false /\
      trace g2 = trace g1 ++ hide_effects (container g) ++
                 [AbsoluteMotion t2 x2 y2;
                  ButtonEvent (t2 + 5000) BUTTON_PRIMARY RELEASED].
Proof.
  intros e1 e2 x1 y1 x2 y2 g Hd Hdev t1 t2.
  destruct e1 as [m1 tm1 [|]]; destruct_grid g; run_grid;
    try discriminate; try (destruct Hdev; discriminate);
    do 2 eexists; close_trace.
Qed.

(** C5: [click] hides the overlay, then emits a motion at [t0], a primary
    press at [t0 + 5ms] and a primary release at [t0 + 10ms]; [doubleClick]
    emits the same followed by a press at [t0 + 60ms] and a release at
    [t0 + 65ms]; nothing else is emitted. *)
Theorem click_doubleClick_sequences :
  forall (e : env) (x y : Z) (g : grid),
    device_available e g ->
    let t0 := monotonic_time e in
    (exists g', GridOverlay.click e x y g = Ok tt g' /\ container g' = None /\
       trace g' = trace g ++ hide_effects (container g) ++
                  [AbsoluteMotion t0 x y;
                   ButtonEvent (t0 + 5000) BUTTON_PRIMARY PRESSED;
                   ButtonEvent (t0 + 10000) BUTTON_PRIMARY RELEASED]) /\
    (exists g', GridOverlay.doubleClick e x y g = Ok tt g' /\ container g' = None /\
       trace g' = trace g ++ hide_effects (container g) ++
                  [AbsoluteMotion t0 x y;
                   ButtonEvent (t0 + 5000) BUTTON_PRIMARY PRESSED;
                   ButtonEvent (t0 + 10000) BUTTON_PRIMARY RELEASED;
                   ButtonEvent (t0 + 60000) BUTTON_PRIMARY PRESSED;
                   ButtonEvent (t0 + 65000) BUTTON_PRIMARY RELEASED]).
Proof.
  intros e x y g Hdev t0.
  destruct e as [m tm [|]]; destruct_grid g; run_grid;
    try (destruct Hdev; discriminate);
    split; eexists; close_trace.
Qed.

(** C6: without a drag in progress, [endDrag] changes nothing: no effect,
    same state, normal return. *)
Theorem endDrag_without_drag_is_noop :
  forall (e : env) (x y : Z) (g : grid),
    dragging g = false ->
    GridOverlay.endDrag e x y g = Ok tt g.
Proof.
  intros e x y g Hd.
  unfold GridOverlay.endDrag, bind, get, ret. rewrite Hd. reflexivity.
Qed.

(** [startDrag] during a drag, with the device there or creatable. *)
Lemma startDrag_dragging_step :
  forall (e : env) (x y : Z) (g : grid),
    dragging g = true -> device_available e g ->
    let t0 := monotonic_time e in
    exists g',
      GridOverlay.startDrag e x y g = Ok tt g' /\
      dragging g' = true /\ container g' = container g /\
      trace g' = trace g ++ [AbsoluteMotion t0 x y;
                             ButtonEvent (t0 + 5000) BUTTON_PRIMARY PRESSED].
Proof.
  intros e x y g Hd Hdev t0.
  destruct e as [m tm [|]]; destruct_grid g; run_grid;
    try discriminate; try (destruct Hdev; discriminate);
    eexists; close_trace.
Qed.

(** The loop of [scroll] run [k] times from [i]: one scroll event per turn,
    at [t + j * 50ms] for [j = i .. i + k - 1]. *)
Lemma scroll_loop_trace :
  forall t dx dy k i g,
    GridOverlay.scroll_loop t dx dy (Z.of_nat i) k g =
    Ok tt (mkGrid (container g) (bounds g) (screenW g) (screenH g) (workArea g)
             (pointer g) (dragging g)
             (trace g ++ map (fun j => ScrollContinuous (t + Z.of_nat j * 50000) dx dy)
                            (seq i k))).
Proof.
  intros t dx dy k. induction k as [|k IH]; intros i g.
  - destruct g; cbn. rewrite app_nil_r. reflexivity.
  - cbn [GridOverlay.scroll_loop seq map].
    unfold bind, emit, modify at 1.
    replace (Z.of_nat i + 1) with (Z.of_nat (S i)) by lia.
    rewrite IH. cbn. rewrite <- app_assoc. reflexivity.
Qed.

Lemma scroll_delta_other :
  forall d, d <> "up"%string -> d <> "down"%string -> d <> "left"%string ->
    d <> "right"%string -> GridOverlay.scroll_delta d = (0, 0).
Proof.
  intros d H1 H2 H3 H4. unfold GridOverlay.scroll_delta.
  repeat match goal with
         | |- context [String.eqb ?a ?b] =>
             destruct (String.eqb_spec a b); [subst; congruence|]
         end.
  reflexivity.
Qed.

(** C3: for [clicks = n >= 0], [scroll] hides the overlay, emits a motion
    at [t0] and then exactly [n] scroll events, the [i]-th at
    [t0 + i * 50ms], all with the delta of the direction: [(0,-1)] for
    "up", [(0,1)] for "down", [(-1,0)] for "left", [(1,0)] for "right" and
    [(0,0)] for any other string, which does not make the call fail. *)
Theorem scroll_emits_n_events :
  forall (e : env) (x y : Z) (direction : string) (n : Z) (g : grid),
    0 <= n -> device_available e g ->
    let t0 := monotonic_time e in
    let delta := GridOverlay.scroll_delta direction in
    (exists g', GridOverlay.scroll e x y direction n g = Ok tt g' /\
       container g' = None /\
       trace g' = trace g ++ hide_effects (container g) ++
                  AbsoluteMotion t0 x y ::
                  map (fun i => ScrollContinuous (t0 + Z.of_nat i * 50000)
                                  (fst delta) (snd delta))
                      (seq 0 (Z.to_nat n))) /\
    Z.of_nat (List.length (seq 0 (Z.to_nat n))) = n /\
    GridOverlay.scroll_delta "up" = (0, -1) /\
    GridOverlay.scroll_delta "down" = (0, 1) /\
    GridOverlay.scroll_delta "left" = (-1, 0) /\
    GridOverlay.scroll_delta "right" = (1, 0) /\
    (direction <> "up"%string -> direction <> "down"%string ->
     direction <> "left"%string -> direction <> "right"%string -> delta = (0, 0)).
Proof.
  intros e x y direction n g Hn Hdev t0 delta.
  split.
  2:{ split; [rewrite length_seq; lia|].
      repeat split; [reflexivity..|apply scroll_delta_other]. }
  unfold GridOverlay.scroll, delta.
  destruct (GridOverlay.scroll_delta direction) as [dx dy].
  destruct e as [m tm [|]]; destruct_grid g;
    cbv [GridOverlay.hide GridOverlay._getPointer bind ret get modify throw emit
         set_container set_pointer device_available hide_effects] in *;
    cbn -[Z.add Z.mul GridOverlay.scroll_loop] in *;
    try (destruct Hdev; discriminate);
    change 0 with (Z.of_nat 0); rewrite scroll_loop_trace;
    (eexists; split; [reflexivity|]); cbn -[Z.add Z.mul seq map];
    rewrite <- ?app_assoc; split; reflexivity.
Qed.

(** ** The façade after a failed device creation *)

Definition is_EndDrag (c : grid_call) : bool :=
  match c with EndDrag _ _ => true | _ => false end.

(** A primary monitor of 1920x1080 at time [t], with device creation
    succeeding or not. *)
Definition env_at (t : Z) (ok : bool) : env := mkEnv (mkRect 0 0 1920 1080) t ok.

(** C4 (counterexample): two clicks whose device creation fails each get a
    D-Bus error, and a third click, with creation now succeeding, is
    carried out: the failure is reported twice and nothing is disabled. *)
Lemma device_failure_not_sticky_counterexample :
  let '(replies, g) :=
    run_calls [(env_at 1000 false, Click 5 5); (env_at 2000 false, Click 5 5);
               (env_at 3000 true, Click 5 5)] new_GridOverlay in
  replies = [DBusError; DBusError; DBusOk RUnit] /\
  pointer g = true /\
  trace g = [AbsoluteMotion 3000 5 5;
             ButtonEvent 8000 BUTTON_PRIMARY PRESSED;
             ButtonEvent 13000 BUTTON_PRIMARY RELEASED].
Proof. vm_compute. repeat split. Qed.

(** C4 (amended): a pointer-producing call whose device creation fails
    ends in an error, emits no pointer event (it may already have hidden
    the overlay), leaves the device unset and the drag flag as it was; the
    same call made afterwards tries to create the device again and goes
    through when creation succeeds.  An [EndDrag] without a drag returns
    before touching the device. *)
(** With device creation succeeding, every pointer-producing call goes
    through and leaves the device set, except an [EndDrag] without a drag,
    which changes nothing. *)
Lemma dispatch_device_ok :
  forall (c : grid_call) (e : env) (g : grid),
    pointer_call c = true -> create_virtual_device_ok e = true ->
    exists g2, dispatch e c g = Ok RUnit g2 /\
      (pointer g2 = true \/ (is_EndDrag c = true /\ dragging g = false /\ g2 = g)).
Proof.
  intros c e g Hc He. destruct e as [m tm ok]; cbn in He; subst ok.
  destruct g as [[cr|] b sw sh wa [|] [|] tr];
    destruct c; cbn in Hc; try discriminate;
    cbv [dispatch GridOverlay.hide GridOverlay._getPointer GridOverlay.click
         GridOverlay.doubleClick GridOverlay.rightClick GridOverlay.middleClick
         GridOverlay.moveTo GridOverlay.startDrag GridOverlay.endDrag GridOverlay.scroll
         bind ret get modify throw emit set_container set_pointer set_dragging];
    cbn -[Z.add Z.mul GridOverlay.scroll_loop];
    try (destruct (GridOverlay.scroll_delta _) as [dx dy]);
    try (change 0 with (Z.of_nat 0); rewrite scroll_loop_trace);
    (eexists; split; [reflexivity|]);
    first [left; reflexivity | right; repeat split].
Qed.

(** C4 (amended): a pointer-producing call whose device creation fails
    ends in an error, emits no pointer event (it may already have hidden
    the overlay), leaves the device unset and the drag flag as it was.
    Nothing is disabled: afterwards, any pointer-producing call made while
    creation succeeds goes through and sets the device (an [EndDrag]
    without a drag changes nothing), and one made while creation keeps
    failing fails again in the same way ([device_failure_retried] applies
    to the new state).  An [EndDrag] without a drag returns before
    touching the device. *)
Theorem device_failure_retried :
  forall (c : grid_call) (e : env) (g : grid),
    pointer_call c = true -> pointer g = false ->
    create_virtual_device_ok e = false ->
    match dispatch e c g with
    | Ok r g1 => is_EndDrag c = true /\ dragging g = false /\ g1 = g
    | Throw g1 =>
        pointer g1 = false /\ dragging g1 = dragging g /\
        (trace g1 = trace g \/ trace g1 = trace g ++ [ContainerDestroyed]) /\
        forall (c' : grid_call) (e' : env),
          pointer_call c' = true -> create_virtual_device_ok e' = true ->
          exists g2, dispatch e' c' g1 = Ok RUnit g2 /\
            (pointer g2 = true \/ (is_EndDrag c' = true /\ dragging g1 = false /\ g2 = g1))
    end.
Proof.
  intros c e g Hc Hp He.
  destruct e as [m tm ok]; cbn in He; subst ok.
  destruct g as [[cr|] b sw sh wa p [|] tr]; cbn in Hp; subst p;
    destruct c; cbn in Hc; try discriminate;
    cbv [dispatch GridOverlay.hide GridOverlay._getPointer GridOverlay.click
         GridOverlay.doubleClick GridOverlay.rightClick GridOverlay.middleClick
         GridOverlay.moveTo GridOverlay.startDrag GridOverlay.endDrag GridOverlay.scroll
         bind ret get modify throw emit set_container set_pointer set_dragging];
    cbn -[Z.add Z.mul GridOverlay.scroll_loop dispatch];
    repeat split; auto;
    intros c' e' Hc' He'; apply dispatch_device_ok; assumption.
Qed.

(** ** Claims about [WindowManager] *)

Lemma switchWorkspace_active :
  forall d i,
    active_workspace_index (WindowManager.switchWorkspace i d) =
    if andb (0 <=? i) (i <? n_workspaces d) then i else active_workspace_index d.
Proof.
  intros d i. unfold WindowManager.switchWorkspace, WindowManager.get_workspace_by_index.
  destruct (andb _ _); reflexivity.
Qed.

(** C7: with the active index in range, [nextWorkspace] stays on the last
    workspace and otherwise moves one up, [prevWorkspace] stays on the
    first one and otherwise moves one down; both keep the index in range. *)
Theorem workspace_next_prev_clamp :
  forall d : compositor,
    0 <= active_workspace_index d < n_workspaces d ->
    let cur := active_workspace_index d in
    let n := n_workspaces d in
    (cur = n - 1 -> active_workspace_index (WindowManager.nextWorkspace d) = cur) /\
    (cur < n - 1 -> active_workspace_index (WindowManager.nextWorkspace d) = cur + 1) /\
    (cur = 0 -> active_workspace_index (WindowManager.prevWorkspace d) = cur) /\
    (0 < cur -> active_workspace_index (WindowManager.prevWorkspace d) = cur - 1) /\
    0 <= active_workspace_index (WindowManager.nextWorkspace d) < n /\
    0 <= active_workspace_index (WindowManager.prevWorkspace d) < n.
Proof.
  intros d Hr cur n.
  unfold WindowManager.nextWorkspace, WindowManager.prevWorkspace.
  rewrite !switchWorkspace_active. fold cur n. fold cur n in Hr.
  repeat split; intros;
    repeat match goal with
           | |- context [andb (0 <=? ?i) (?i <? ?m)] =>
               destruct (0 <=? i) eqn:?, (i <? m) eqn:?
           end; cbn [andb];
    rewrite ?Z.leb_le, ?Z.leb_gt, ?Z.ltb_lt, ?Z.ltb_ge in *; lia.
Qed.

Lemma update_window_same :
  forall win f d, windows (update_window win f d) win = f (windows d win).
Proof. intros win f d. cbn. rewrite Nat.eqb_refl. reflexivity. Qed.

Lemma update_window_other :
  forall win f d r, r <> win -> windows (update_window win f d) r = windows d r.
Proof.
  intros win f d r H. cbn. destruct (Nat.eqb_spec r win); [contradiction|reflexivity].
Qed.

(** What tiling does to the window objects: [unmaximize], then
    [move_resize_frame] to [r], on the window [i]. *)
Lemma tile_windows :
  forall d i r,
    windows (move_resize_frame i false (rx r) (ry r) (rw r) (rh r) (unmaximize i d)) i
      = win_set_frame r (win_unmaximize (windows d i)) /\
    (forall j, j <> i ->
       windows (move_resize_frame i false (rx r) (ry r) (rw r) (rh r) (unmaximize i d)) j
       = windows d j).
Proof.
  intros d i [x y w h]. unfold move_resize_frame, unmaximize. cbn.
  split.
  - rewrite !Nat.eqb_refl. reflexivity.
  - intros j Hj. destruct (Nat.eqb_spec j i); [contradiction|reflexivity].
Qed.

(** C8: on the focused window [i], whose monitor has the work area [wa]
    of width [W] and height [H], [tileLeft] unmaximizes and then moves and
    resizes the window to [(ax, ay, W / 2, H)] and [tileRight] to
    [(ax + W / 2, ay, W / 2, H)], [/] rounding down as [Math.floor] does;
    no other window changes.  The focused window need not be shown by any
    actor.  Tiling [i] left and then, after focusing another window [j] on
    the same work area, [j] right gives two frames side by side whose
    widths add up to [W] or [W - 1]. *)
Theorem tile_left_right_halves :
  forall (d : compositor) (i : wref),
    focus_window d = Some i ->
    let w := windows d i in
    let wa := workAreaForMonitor d (win_monitor w) in
    let L := mkRect (rx wa) (ry wa) (rw wa / 2) (rh wa) in
    let R := mkRect (rx wa + rw wa / 2) (ry wa) (rw wa / 2) (rh wa) in
    wm_trace (WindowManager.tileLeft d) =
      wm_trace d ++ [Unmaximize i; MoveResizeFrame i false (rx L) (ry L) (rw L) (rh L)] /\
    windows (WindowManager.tileLeft d) i = win_set_frame L (win_unmaximize w) /\
    wm_trace (WindowManager.tileRight d) =
      wm_trace d ++ [Unmaximize i; MoveResizeFrame i false (rx R) (ry R) (rw R) (rh R)] /\
    windows (WindowManager.tileRight d) i = win_set_frame R (win_unmaximize w) /\
    (forall j, j <> i ->
       windows (WindowManager.tileLeft d) j = windows d j /\
       windows (WindowManager.tileRight d) j = windows d j) /\
    (forall j : wref,
       j <> i -> workAreaForMonitor d (win_monitor (windows d j)) = wa ->
       let d2 := WindowManager.tileRight (set_focus (Some j) (WindowManager.tileLeft d)) in
       windows d2 i = win_set_frame L (win_unmaximize w) /\
       windows d2 j = win_set_frame R (win_unmaximize (windows d j)) /\
       0 <= rw wa - (rw L + rw R) <= 1 /\
       rx L + rw L = rx R /\ ry L = ry R /\ rh L = rh wa /\ rh R = rh wa).
Proof.
  intros d i Hf w wa L R.
  unfold WindowManager.tileLeft, WindowManager.tileRight, WindowManager._getFocusedWindow.
  rewrite Hf. fold w. fold wa.
  destruct (tile_windows d i L) as [HL HLo].
  destruct (tile_windows d i R) as [HR HRo].
  cbn [rx ry rw rh L R] in HL, HLo, HR, HRo.
  split; [cbn; rewrite <- app_assoc; reflexivity|].
  split; [exact HL|].
  split; [cbn; rewrite <- app_assoc; reflexivity|].
  split; [exact HR|].
  split; [intros j Hj; split; [apply HLo|apply HRo]; exact Hj|].
  intros j Hji Hwa2.
  set (dL := move_resize_frame i false (rx wa) (ry wa) (rw wa / 2) (rh wa) (unmaximize i d)).
  cbn [set_focus focus_window].
  replace (windows (set_focus (Some j) dL) j) with (windows d j)
    by (cbn [set_focus windows]; symmetry; apply HLo; exact Hji).
  replace (workAreaForMonitor (set_focus (Some j) dL) (win_monitor (windows d j))) with wa
    by (cbn; symmetry; exact Hwa2).
  destruct (tile_windows (set_focus (Some j) dL) j R) as [HR2 HR2o].
  cbn [rx ry rw rh L R] in HR2, HR2o.
  split; [|split].
  - rewrite HR2o by (intros E; apply Hji; symmetry; exact E).
    cbn [set_focus windows]. exact HL.
  - rewrite HR2. cbn [set_focus windows]. rewrite HLo by exact Hji. reflexivity.
  - unfold L, R; cbn [rx ry rw rh].
    pose proof (Z.mod_pos_bound (rw wa) 2 ltac:(lia)).
    pose proof (Z.div_mod (rw wa) 2 ltac:(lia)).
    repeat split; lia.
Qed.

Lemma includes_empty : forall hay, includes hay "" = true.
Proof. destruct hay; reflexivity. Qed.

Lemma focus_loop_empty :
  forall toLowerCase l d,
    WindowManager.focus_loop toLowerCase "" l d =
    match first_normal (windows d) l with
    | Some r => (true, activate r d)
    | None => (false, d)
    end.
Proof.
  intros toLowerCase. induction l as [|[r|] l IH]; intros d; cbn; auto.
  destruct (WindowManager.is_normal (windows d r)); cbn; auto.
  unfold WindowManager.matches. rewrite includes_empty. reflexivity.
Qed.

Lemma first_normal_exists :
  forall ws l r, In (Some r) l -> WindowManager.is_normal (ws r) = true ->
    exists r0, first_normal ws l = Some r0.
Proof.
  intros ws. induction l as [|o l IH]; intros r Hin Hn; [destruct Hin|].
  destruct Hin as [->|Hin].
  - cbn. rewrite Hn. eauto.
  - destruct o as [r'|]; cbn; [destruct (WindowManager.is_normal (ws r')); eauto|eauto].
Qed.

(** C10: [focusWindow("")] succeeds and activates the first normal window
    of the enumeration as soon as there is a normal window; a missing title
    or class is matched exactly as an empty one, for every search string.
    Of [toLowerCase] this uses only that it maps [""] to [""]. *)
Theorem focusWindow_empty_string :
  forall (toLowerCase : string -> string) (d : compositor),
    toLowerCase ""%string = ""%string ->
    ((exists r, In (Some r) (actors d) /\ WindowManager.is_normal (windows d r) = true) ->
     exists r0, first_normal (windows d) (actors d) = Some r0 /\
       WindowManager.focusWindow toLowerCase "" d = (true, activate r0 d)) /\
    (forall (s : string) (w : window),
       WindowManager.matches toLowerCase s w =
       WindowManager.matches toLowerCase s (absent_as_empty w)).
Proof.
  intros toLowerCase d Hlow. split.
  - intros [r [Hin Hn]].
    destruct (first_normal_exists _ _ _ Hin Hn) as [r0 H0].
    exists r0. split; [exact H0|].
    cbv beta zeta delta [WindowManager.focusWindow]. rewrite Hlow.
    rewrite focus_loop_empty, H0. reflexivity.
  - intros s w. unfold WindowManager.matches, absent_as_empty, lower_or_empty.
    cbn. destruct (win_title w), (win_wm_class w); rewrite ?Hlow; reflexivity.
Qed.

(** ** Witnesses: the hypotheses of the theorems hold on concrete states *)

(** An overlay shown on a 1920x1080 primary monitor, device not yet created. *)
Definition shown_grid : grid :=
  mkGrid (Some (mkRect 0 0 1920 1080)) (0, 0, 1920, 1080) 1920 1080 None false false [].

Lemma startDrag_endDrag_sequence_witness :
  dragging shown_grid = false /\ device_available (env_at 1000 true) shown_grid /\
  exists g1 g2,
    GridOverlay.startDrag (env_at 1000 true) 10 10 shown_grid = Ok tt g1 /\
    container g1 = Some (mkRect 0 0 1920 1080) /\ dragging g1 = true /\
    trace g1 = [AbsoluteMotion 1000 10 10; ButtonEvent 6000 BUTTON_PRIMARY PRESSED] /\
    GridOverlay.endDrag (env_at 90000 true) 200 200 g1 = Ok tt g2 /\
    container g2 = None /\ dragging g2 = false /\
    trace g2 = trace g1 ++ [ContainerDestroyed; AbsoluteMotion 90000 200 200;
                            ButtonEvent 95000 BUTTON_PRIMARY RELEASED].
Proof.
  split; [reflexivity|]. split; [right; reflexivity|].
  exact (startDrag_endDrag_sequence (env_at 1000 true) (env_at 90000 true) 10 10 200 200
           shown_grid eq_refl (or_intror eq_refl)).
Defined.

Lemma click_doubleClick_sequences_witness :
  device_available (env_at 1000 true) shown_grid /\
  (exists g', GridOverlay.click (env_at 1000 true) 7 8 shown_grid = Ok tt g' /\
     container g' = None /\
     trace g' = [ContainerDestroyed; AbsoluteMotion 1000 7 8;
                 ButtonEvent 6000 BUTTON_PRIMARY PRESSED;
                 ButtonEvent 11000 BUTTON_PRIMARY RELEASED]) /\
  (exists g', GridOverlay.doubleClick (env_at 1000 true) 7 8 shown_grid = Ok tt g' /\
     container g' = None /\
     trace g' = [ContainerDestroyed; AbsoluteMotion 1000 7 8;
                 ButtonEvent 6000 BUTTON_PRIMARY PRESSED;
                 ButtonEvent 11000 BUTTON_PRIMARY RELEASED;
                 ButtonEvent 61000 BUTTON_PRIMARY PRESSED;
                 ButtonEvent 66000 BUTTON_PRIMARY RELEASED]).
Proof.
  split; [right; reflexivity|].
  exact (click_doubleClick_sequences (env_at 1000 true) 7 8 shown_grid (or_intror eq_refl)).
Defined.

Lemma endDrag_without_drag_is_noop_witness :
  dragging shown_grid = false /\
  GridOverlay.endDrag (env_at 1000 true) 200 200 shown_grid = Ok tt shown_grid.
Proof.
  split; [reflexivity|].
  apply endDrag_without_drag_is_noop. reflexivity.
Defined.

(** A grid in the middle of a drag. *)
Definition dragging_grid : grid :=
  mkGrid (Some (mkRect 0 0 1920 1080)) (0, 0, 1920, 1080) 1920 1080 None true true
    [AbsoluteMotion 1000 10 10; ButtonEvent 6000 BUTTON_PRIMARY PRESSED].


Lemma scroll_emits_n_events_witness :
  0 <= 3 /\ device_available (env_at 1000 true) shown_grid /\
  exists g', GridOverlay.scroll (env_at 1000 true) 5 6 "down" 3 shown_grid = Ok tt g' /\
    container g' = None /\
    trace g' = [ContainerDestroyed; AbsoluteMotion 1000 5 6;
                ScrollContinuous 1000 0 1; ScrollContinuous 51000 0 1;
                ScrollContinuous 101000 0 1].
Proof.
  split; [lia|]. split; [right; reflexivity|].
  exact (proj1 (scroll_emits_n_events (env_at 1000 true) 5 6 "down" 3 shown_grid
                  ltac:(lia) (or_intror eq_refl))).
Defined.

Lemma device_failure_retried_witness :
  pointer_call (MoveTo 5 5) = true /\ pointer shown_grid = false /\
  create_virtual_device_ok (env_at 1000 false) = false /\
  exists g1, dispatch (env_at 1000 false) (MoveTo 5 5) shown_grid = Throw g1 /\
    pointer g1 = false /\ trace g1 = [] /\
    exists g2, dispatch (env_at 2000 true) (Click 7 8) g1 = Ok RUnit g2 /\ pointer g2 = true.
Proof.
  pose proof (device_failure_retried (MoveTo 5 5) (env_at 1000 false) shown_grid
                eq_refl eq_refl eq_refl) as H.
  split; [reflexivity|]. split; [reflexivity|]. split; [reflexivity|].
  remember (dispatch (env_at 1000 false) (MoveTo 5 5) shown_grid) as res eqn:Eres.
  destruct res as [r g1|g1]; [vm_compute in Eres; discriminate|].
  destruct H as (Hp & _ & _ & Hnext).
  exists g1. split; [reflexivity|]. split; [exact Hp|].
  split; [vm_compute in Eres; injection Eres as E; subst g1; reflexivity|].
  destruct (Hnext (Click 7 8) (env_at 2000 true) eq_refl eq_refl) as [g2 [Hg2 [Hp2|Hend]]].
  - exists g2. split; [exact Hg2|exact Hp2].
  - destruct Hend as [Hend _]. discriminate.
Defined.

(** Three workspaces, the second one active. *)
Definition three_workspaces : compositor :=
  mkCompositor (fun r => mkWindow r OTHER_TYPE None None 0 (mkRect 0 0 0 0) false) [] None (fun _ => mkRect 0 0 1920 1080) 3 1 [].

Lemma workspace_next_prev_clamp_witness :
  0 <= active_workspace_index three_workspaces < n_workspaces three_workspaces /\
  active_workspace_index (WindowManager.nextWorkspace three_workspaces) = 2 /\
  active_workspace_index (WindowManager.prevWorkspace three_workspaces) = 0.
Proof.
  split; [cbn; lia|].
  destruct (workspace_next_prev_clamp three_workspaces ltac:(cbn; lia))
    as [_ [Hn [_ [Hp _]]]].
  split; [apply Hn; cbn; lia | apply Hp; cbn; lia].
Defined.

(** Two normal windows on a monitor whose work area is 1365 wide, below a
    32-pixel panel: window 1, focused and maximized, shown by an actor, and
    window 2, which no actor shows (yet). *)
Definition two_windows_objects (r : wref) : window :=
  match r with
  | 1%nat => mkWindow 1 NORMAL (Some "Terminal"%string) (Some "gnome-terminal"%string) 0
               (mkRect 0 32 1365 736) true
  | 2%nat => mkWindow 2 NORMAL None (Some "firefox"%string) 0 (mkRect 100 100 800 600) false
  | _ => mkWindow r OTHER_TYPE None None 0 (mkRect 0 0 0 0) false
  end.

Definition two_windows : compositor :=
  mkCompositor two_windows_objects [None; Some 1%nat] (Some 1%nat)
    (fun _ => mkRect 0 32 1365 736) 1 0 [].

Lemma tile_left_right_halves_witness :
  focus_window two_windows = Some 1%nat /\
  win_frame (windows (WindowManager.tileRight
                        (set_focus (Some 2%nat) (WindowManager.tileLeft two_windows))) 1%nat)
    = mkRect 0 32 682 736 /\
  win_frame (windows (WindowManager.tileRight
                        (set_focus (Some 2%nat) (WindowManager.tileLeft two_windows))) 2%nat)
    = mkRect 682 32 682 736.
Proof.
  split; [reflexivity|].
  destruct (tile_left_right_halves two_windows 1%nat eq_refl) as (_ & _ & _ & _ & _ & Hboth).
  destruct (Hboth 2%nat ltac:(discriminate) eq_refl) as [H1 [H2 _]].
  split; (etransitivity; [apply (f_equal win_frame); eassumption|reflexivity]).
Defined.

Lemma focusWindow_empty_string_witness :
  ascii_toLowerCase "" = ""%string /\
  (exists r, In (Some r) (actors two_windows) /\
             WindowManager.is_normal (windows two_windows r) = true) /\
  fst (WindowManager.focusWindow ascii_toLowerCase "" two_windows) = true.
Proof.
  assert (Hex : exists r, In (Some r) (actors two_windows) /\
                          WindowManager.is_normal (windows two_windows r) = true).
  { exists 1%nat. split; [right; left; reflexivity | reflexivity]. }
  split; [reflexivity|]. split; [exact Hex|].
  destruct (proj1 (focusWindow_empty_string ascii_toLowerCase two_windows eq_refl) Hex)
    as [r0 [_ H]].
  rewrite H. reflexivity.
Defined.

(** ** Further properties of [GridOverlay] *)

(** [rightClick] and [middleClick]: hide, then motion, press and release
    of the secondary (resp. middle) button 5ms and 10ms after it. *)
Theorem rightClick_middleClick_sequences :
  forall (e : env) (x y : Z) (g : grid),
    device_available e g ->
    let t0 := monotonic_time e in
    (exists g', GridOverlay.rightClick e x y g = Ok tt g' /\ container g' = None /\
       dragging g' = dragging g /\
       trace g' = trace g ++ hide_effects (container g) ++
                  [AbsoluteMotion t0 x y;
                   ButtonEvent (t0 + 5000) BUTTON_SECONDARY PRESSED;
                   ButtonEvent (t0 + 10000) BUTTON_SECONDARY RELEASED]) /\
    (exists g', GridOverlay.middleClick e x y g = Ok tt g' /\ container g' = None /\
       dragging g' = dragging g /\
       trace g' = trace g ++ hide_effects (container g) ++
                  [AbsoluteMotion t0 x y;
                   ButtonEvent (t0 + 5000) BUTTON_MIDDLE PRESSED;
                   ButtonEvent (t0 + 10000) BUTTON_MIDDLE RELEASED]).
Proof.
  intros e x y g Hdev t0.
  destruct e as [m tm [|]]; destruct_grid g; run_grid;
    try (destruct Hdev; discriminate);
    split; eexists; close_trace.
Qed.

(** [moveTo] emits one motion and nothing else: the overlay, its bounds
    and the drag flag stay as they are. *)
Theorem moveTo_only_moves :
  forall (e : env) (x y : Z) (g : grid),
    device_available e g ->
    exists g', GridOverlay.moveTo e x y g = Ok tt g' /\
      container g' = container g /\ bounds g' = bounds g /\ dragging g' = dragging g /\
      trace g' = trace g ++ [AbsoluteMotion (monotonic_time e) x y].
Proof.
  intros e x y g Hdev.
  destruct e as [m tm [|]]; destruct_grid g; run_grid;
    try (destruct Hdev; discriminate);
    eexists; close_trace.
Qed.

(** [hide] twice is [hide] once: the second call finds no overlay. *)
Theorem hide_idempotent :
  forall g, bind GridOverlay.hide (fun _ => GridOverlay.hide) g = GridOverlay.hide g.
Proof.
  intros g. destruct_grid g; reflexivity.
Qed.

(** [show] on a shown overlay destroys the old container before adding
    the new one: exactly one destruction, then one addition. *)
Theorem show_replaces_overlay :
  forall (e : env) (w h : Z) (g : grid),
    container g <> None ->
    let m := primaryMonitor e in
    exists g', GridOverlay.show e w h g = Ok tt g' /\
      trace g' = trace g ++ [ContainerDestroyed;
                             ContainerAdded (mkRect (rx m) (ry m) (rw m) (rh m))].
Proof.
  intros e w h g Hc m.
  destruct_grid g; try (exfalso; apply Hc; reflexivity);
    run_grid; eexists; close_trace.
Qed.

(** [scroll] with [clicks <= 0] still hides the overlay and moves the
    pointer, but emits no scroll event. *)
Theorem scroll_nonpositive_clicks :
  forall (e : env) (x y : Z) (direction : string) (n : Z) (g : grid),
    n <= 0 -> device_available e g ->
    exists g', GridOverlay.scroll e x y direction n g = Ok tt g' /\
      container g' = None /\
      trace g' = trace g ++ hide_effects (container g) ++ [AbsoluteMotion (monotonic_time e) x y].
Proof.
  intros e x y direction n g Hn Hdev.
  assert (Z.to_nat n = 0%nat) as Hz by lia.
  unfold GridOverlay.scroll. rewrite Hz.
  destruct (GridOverlay.scroll_delta direction) as [dx dy].
  destruct e as [m tm [|]]; destruct_grid g; run_grid;
    try (destruct Hdev; discriminate);
    eexists; close_trace.
Qed.

(** Overlays added minus overlays destroyed along a trace. *)
Fixpoint overlays_alive (tr : list effect) : Z :=
  match tr with
  | [] => 0
  | ContainerAdded _ :: tr' => 1 + overlays_alive tr'
  | ContainerDestroyed :: tr' => -1 + overlays_alive tr'
  | _ :: tr' => overlays_alive tr'
  end.

Lemma overlays_alive_app :
  forall l1 l2, overlays_alive (l1 ++ l2) = overlays_alive l1 + overlays_alive l2.
Proof.
  induction l1 as [|[] l1 IH]; intros l2; cbn -[Z.add]; rewrite ?IH; lia.
Qed.

Lemma overlays_alive_scrolls :
  forall (f : nat -> effect) l,
    (forall j, exists t dx dy, f j = ScrollContinuous t dx dy) ->
    overlays_alive (map f l) = 0.
Proof.
  intros f l Hf. induction l as [|j l IH]; cbn; [reflexivity|].
  destruct (Hf j) as (t & dx & dy & ->). exact IH.
Qed.

(** What every state reached by D-Bus calls satisfies. *)
Definition grid_inv (g : grid) : Prop :=
  (dragging g = true -> pointer g = true) /\
  workArea g = None /\
  overlays_alive (trace g) = (match container g with Some _ => 1 | None => 0 end).

Lemma dispatch_preserves_inv :
  forall e c g,
    grid_inv g ->
    match dispatch e c g with Ok _ g' => grid_inv g' | Throw g' => grid_inv g' end.
Proof.
  intros e c g (Hdp & Hwa & Hal).
  destruct e as [m tm ok].
  destruct g as [[cr|] b sw sh wa [|] [|] tr]; cbn in Hdp, Hwa, Hal; subst wa;
    destruct c; destruct ok;
    cbv [dispatch GridOverlay.show GridOverlay.hide GridOverlay._getPointer GridOverlay.click
         GridOverlay.doubleClick GridOverlay.rightClick GridOverlay.middleClick
         GridOverlay.moveTo GridOverlay.startDrag GridOverlay.endDrag GridOverlay.scroll
         GridOverlay.update GridOverlay.getScreenSize
         bind ret get modify throw emit set_container set_pointer set_dragging
         set_bounds set_screen];
    cbn -[Z.add Z.mul GridOverlay.scroll_loop overlays_alive];
    try (destruct (GridOverlay.scroll_delta _) as [dx dy];
         change 0 with (Z.of_nat 0); rewrite scroll_loop_trace);
    unfold grid_inv; cbn -[Z.add Z.mul overlays_alive];
    (split; [try discriminate; auto|split; [reflexivity|]]);
    rewrite ?overlays_alive_app; cbn -[Z.add Z.mul overlays_alive];
    rewrite ?overlays_alive_app;
    try (rewrite overlays_alive_scrolls by (intros; do 3 eexists; reflexivity));
    cbn -[Z.add Z.mul]; try lia; try discriminate.
Qed.

Lemma run_calls_grid_inv :
  forall calls, grid_inv (snd (run_calls calls new_GridOverlay)).
Proof.
  assert (Hinv : forall cs g0, grid_inv g0 -> grid_inv (snd (run_calls cs g0))).
  { induction cs as [|[e c] cs IH]; intros g0 H0; cbn; [exact H0|].
    pose proof (dispatch_preserves_inv e c g0 H0) as H1.
    destruct (dispatch e c g0) as [r g1|g1];
      destruct (run_calls cs g1) as [rs g2] eqn:Ecs;
      specialize (IH g1 H1); rewrite Ecs in IH; exact IH. }
  intros calls. apply Hinv. unfold grid_inv; cbn. repeat split; discriminate.
Qed.

(** From a fresh [GridOverlay], whatever sequence of D-Bus calls is made
    (each with the environment it sees, failing or not): a drag in progress
    always has its virtual device, [this.workArea] stays null (nothing sets
    it, so [_clampToWorkArea] returns its input), and the containers added
    minus those destroyed is 1 when an overlay is shown and 0 otherwise, so
    there is never more than one overlay. *)
Theorem run_calls_invariant :
  forall calls : list (env * grid_call),
    let g := snd (run_calls calls new_GridOverlay) in
    (dragging g = true -> pointer g = true) /\
    workArea g = None /\
    (forall x y w h, Overlay._clampToWorkArea g x y w h = (x, y, w, h)) /\
    overlays_alive (trace g) = (match container g with Some _ => 1 | None => 0 end).
Proof.
  intros calls g.
  destruct (run_calls_grid_inv calls) as (H1 & H2 & H3). fold g in H1, H2, H3.
  split; [exact H1|]. split; [exact H2|]. split; [|exact H3].
  intros x y w h. unfold Overlay._clampToWorkArea. rewrite H2. reflexivity.
Qed.

(** C9: in any state the overlay can reach (a fresh [GridOverlay] after
    any D-Bus calls, failing or not), [startDrag] during a drag is carried
    out like the first one: a motion and a second primary press with no
    release in between, the drag flag staying set and the overlay
    untouched.  It cannot fail then: a drag only starts once the device
    exists. *)
Theorem startDrag_while_dragging :
  forall (calls : list (env * grid_call)) (e : env) (x y : Z),
    let g := snd (run_calls calls new_GridOverlay) in
    dragging g = true ->
    let t0 := monotonic_time e in
    exists g',
      GridOverlay.startDrag e x y g = Ok tt g' /\
      dragging g' = true /\ container g' = container g /\
      trace g' = trace g ++ [AbsoluteMotion t0 x y;
                             ButtonEvent (t0 + 5000) BUTTON_PRIMARY PRESSED].
Proof.
  intros calls e x y g Hd t0.
  destruct (run_calls_grid_inv calls) as (Hp & _ & _). fold g in Hp.
  apply startDrag_dragging_step; [exact Hd|left; apply Hp; exact Hd].
Qed.

(** ** Properties of [_clampToWorkArea] and [_draw] *)



(** The labels' texts, in the order [_draw] adds them. *)
Fixpoint label_texts (l : list Overlay.child) : list string :=
  match l with
  | [] => []
  | Overlay.StLabel t _ _ _ :: l' => t :: label_texts l'
  | _ :: l' => label_texts l'
  end.

Lemma Math_floor_third :
  forall b : Q, (0 <= b)%Q ->
    (0 <= Overlay.Math_floor (b / 3))%Q /\ (3 * Overlay.Math_floor (b / 3) <= b)%Q.
Proof.
  intros b Hb. unfold Overlay.Math_floor.
  pose proof (Qfloor_le (b / 3)) as H1.
  pose proof (Qlt_floor (b / 3)) as H2.
  rewrite inject_Z_plus in H2. change (inject_Z 1) with 1%Q in H2.
  unfold Qdiv in H1, H2; change (/ 3) with (1#3) in H1, H2.
  assert (H3 : (0 <= Qfloor (b * (1#3)))%Z).
  { assert (H4 : (-1 < Qfloor (b * (1#3)))%Z).
    { rewrite Zlt_Qlt. change (inject_Z (-1)) with (-1)%Q. lra. }
    lia. }
  rewrite Zle_Qle in H3. change (inject_Z 0) with 0%Q in H3.
  unfold Qdiv; change (/ 3) with (1#3). split; lra.
Qed.

Lemma Math_floor_third_4 :
  forall b : Q, (4 <= b)%Q ->
    (1 <= Overlay.Math_floor (b / 3))%Q /\ (2 * Overlay.Math_floor (b / 3) + 2 <= b)%Q.
Proof.
  intros b Hb. destruct (Math_floor_third b ltac:(lra)) as [_ H3].
  unfold Overlay.Math_floor in *.
  pose proof (Qlt_floor (b / 3)) as H2.
  rewrite inject_Z_plus in H2. change (inject_Z 1) with 1%Q in H2.
  unfold Qdiv in H2, H3 |- *; change (/ 3) with (1#3) in H2, H3 |- *.
  set (n := Qfloor (b * (1#3))) in *.
  assert (H1 : (1 <= n)%Z).
  { assert (H4 : (0 < n)%Z) by (rewrite Zlt_Qlt; change (inject_Z 0) with 0%Q; lra). lia. }
  destruct (Z.eq_dec n 1) as [E|E].
  - rewrite E. change (inject_Z 1) with 1%Q. lra.
  - assert (H5 : (2 <= n)%Z) by lia.
    rewrite Zle_Qle in H1, H5. change (inject_Z 1) with 1%Q in H1.
    change (inject_Z 2) with 2%Q in H5. split; lra.
Qed.

Lemma Q_fontSize_bounds :
  forall z : Q,
    (24 <= Overlay.Math_max 24 (Overlay.Math_min 72 z) <= 72)%Q.
Proof.
  intros z. unfold Overlay.Math_max, Overlay.Math_min. split.
  - apply Q.le_max_l.
  - apply Q.max_lub; [lra|apply Q.le_min_l].
Qed.

Lemma Q_label_anchor :
  forall b0 bs c f k : Q,
    (0 <= k)%Q -> (k <= 2)%Q -> (0 <= c)%Q -> (3 * c <= bs)%Q ->
    (b0 <= b0 + k * c + c / 2 - f / 2 + f / 2 <= b0 + bs)%Q.
Proof.
  intros b0 bs c f k Hk0 Hk2 Hc Hb.
  unfold Qdiv; change (/ 2) with (1#2). split; nra.
Qed.

Ltac close_small_Q := apply Qle_bool_imp_le; vm_compute; reflexivity.

(** [_draw] on bounds of non-negative size: 18 children (backdrop, two
    vertical and two horizontal lines, nine labels, four crosshair bars);
    the labels read "1" to "9" in order, all with a font size between 24
    and 72, and the point each one is anchored on (its position plus half
    the font size) lies inside the bounds. *)
Theorem draw_labels_inside :
  forall bx by_ bw bh : Q,
    (0 <= bw)%Q -> (0 <= bh)%Q ->
    let cs := Overlay._draw (bx, by_, bw, bh) in
    List.length cs = 18%nat /\
    label_texts cs = ["1"; "2"; "3"; "4"; "5"; "6"; "7"; "8"; "9"]%string /\
    Forall (fun c => match c with
                     | Overlay.StLabel _ fs x y =>
                         (24 <= fs <= 72)%Q /\
                         (bx <= x + fs / 2 <= bx + bw)%Q /\
                         (by_ <= y + fs / 2 <= by_ + bh)%Q
                     | _ => True
                     end) cs.
Proof.
  intros bx by_ bw bh Hw Hh cs.
  split; [reflexivity|]. split; [reflexivity|].
  destruct (Math_floor_third bw Hw) as [Hcw1 Hcw2].
  destruct (Math_floor_third bh Hh) as [Hch1 Hch2].
  unfold cs, Overlay._draw. cbv beta iota zeta delta [map app].
  set (cW := Overlay.Math_floor (bw / 3)) in *.
  set (cH := Overlay.Math_floor (bh / 3)) in *.
  set (fs := Overlay.Math_max 24 (Overlay.Math_min 72 (Overlay.Math_floor (Overlay.Math_min cW cH / 3)))).
  repeat apply Forall_cons; try apply Forall_nil; cbv beta iota; try exact I;
    (split; [apply Q_fontSize_bounds|]);
    split; apply Q_label_anchor; try assumption; close_small_Q.
Qed.

(** The crosshair of [_draw]: its four bars (two white outlines, then two
    red bars) are all centred on [(bx + floor(bw/2), by + floor(bh/2))] and
    fit in a 54x54 square, whatever the bounds. *)
Theorem draw_crosshair_centred :
  forall bx by_ bw bh : Q,
    let cx := (bx + Overlay.Math_floor (bw / 2))%Q in
    let cy := (by_ + Overlay.Math_floor (bh / 2))%Q in
    Forall (fun c => match c with
                     | Overlay.StWidget _ x y w h =>
                         (x + w / 2 == cx)%Q /\ (y + h / 2 == cy)%Q /\
                         (w <= 54)%Q /\ (h <= 54)%Q
                     | Overlay.StLabel _ _ _ _ => False
                     end)
      (skipn 14 (Overlay._draw (bx, by_, bw, bh))).
Proof.
  intros bx by_ bw bh cx cy.
  unfold Overlay._draw. cbv beta iota zeta delta [map app]. cbn [skipn].
  set (cS := Overlay.Math_min 50 _).
  assert (Hs : (cS <= 50)%Q) by apply Q.le_min_l.
  fold cx cy.
  repeat apply Forall_cons; try apply Forall_nil; cbv beta iota;
    (split; [field|split; [field|]]); split; lra.
Qed.

(** The four grid lines of [_draw] lie inside the bounds as soon as these
    are at least 4 pixels wide and high; they sit at one and two thirds
    (rounded down) of the bounds, minus one pixel, and are 3 pixels
    thick. *)
Theorem draw_grid_lines_inside :
  forall bx by_ bw bh : Q,
    (4 <= bw)%Q -> (4 <= bh)%Q ->
    Forall (fun c => match c with
                     | Overlay.StWidget Overlay.GRID_LINE x y w h =>
                         (bx <= x)%Q /\ (x + w <= bx + bw)%Q /\
                         (by_ <= y)%Q /\ (y + h <= by_ + bh)%Q
                     | _ => True
                     end)
      (Overlay._draw (bx, by_, bw, bh)).
Proof.
  intros bx by_ bw bh Hw Hh.
  destruct (Math_floor_third_4 bw Hw) as [Hw1 Hw2].
  destruct (Math_floor_third_4 bh Hh) as [Hh1 Hh2].
  unfold Overlay._draw. cbv beta iota zeta delta [map app].
  set (cW := Overlay.Math_floor (bw / 3)) in *.
  set (cH := Overlay.Math_floor (bh / 3)) in *.
  change (inject_Z 1) with 1%Q. change (inject_Z 2) with 2%Q.
  repeat apply Forall_cons; try apply Forall_nil; cbv beta iota; try exact I;
    repeat split; lra.
Qed.

(** ** Further properties of [WindowManager] *)

(** The test of [focusWindow] on a record of [getWindows]. *)
Definition info_matches (toLowerCase : string -> string) (lowerTitle : string)
    (r : win_info) : bool :=
  includes (lower_or_empty toLowerCase (info_title r)) lowerTitle ||
  includes (lower_or_empty toLowerCase (info_wm_class r)) lowerTitle.

(** [focusWindow] goes through the windows in the order [getWindows] lists
    them: when a listed record has a title or class containing the
    lower-cased search string, it activates the window of the first such
    record, an actor's window with exactly that record, and answers
    [true]; when no record matches it answers [false] and changes nothing.
    This holds whatever [toLowerCase] is. *)
Theorem focusWindow_follows_getWindows :
  forall (toLowerCase : string -> string) (ws_of : workspace_of) (s : string)
         (d : compositor),
    match find (info_matches toLowerCase (toLowerCase s)) (getWindows_records ws_of d) with
    | Some rec =>
        exists r, In (Some r) (actors d) /\
          WindowManager.focusWindow toLowerCase s d = (true, activate r d) /\
          window_record ws_of d (WindowManager._getFocusedWindow d) (Some r) = Some rec
    | None => WindowManager.focusWindow toLowerCase s d = (false, d)
    end.
Proof.
  intros toLowerCase ws_of s d. unfold WindowManager.focusWindow, getWindows_records.
  generalize (WindowManager._getFocusedWindow d) as f.
  generalize (toLowerCase s) as q.
  intros q f. cbv zeta. induction (actors d) as [|[r|] l IH]; cbn; [reflexivity| |].
  - unfold window_record at 1. cbv zeta.
    destruct (WindowManager.is_normal (windows d r)) eqn:En; cbn.
    + unfold info_matches at 1, WindowManager.matches. cbn [info_title info_wm_class].
      destruct (includes _ q || includes _ q) eqn:Em.
      * exists r. split; [left; reflexivity|]. split; [reflexivity|].
        unfold window_record. rewrite En. reflexivity.
      * destruct (find _ _); [|exact IH].
        destruct IH as (r' & Hin & H1 & H2). exists r'.
        split; [right; exact Hin|split; assumption].
    + destruct (find _ _); [|exact IH].
      destruct IH as (r' & Hin & H1 & H2). exists r'.
      split; [right; exact Hin|split; assumption].
  - destruct (find _ _); [|exact IH].
    destruct IH as (r' & Hin & H1 & H2). exists r'.
    split; [right; exact Hin|split; assumption].
Qed.

(** The windows the actors show, in order. *)
Definition actor_windows (l : list (option wref)) : list wref :=
  fold_right (fun o acc => match o with Some r => r :: acc | None => acc end) [] l.

(** The records of [getWindows]: one per actor showing a normal window, in
    the order of the actors; each has the id, title and class of its
    window; [workspace] is -1 exactly for a window without workspace, and
    [focused] is set exactly on the records of the window object that
    [global.display.focus_window] refers to. *)
Theorem getWindows_records_spec :
  forall (ws_of : workspace_of) (d : compositor),
    map info_id (getWindows_records ws_of d) =
      map (fun r => win_id (windows d r))
        (filter (fun r => WindowManager.is_normal (windows d r)) (actor_windows (actors d))) /\
    Forall (fun rec =>
              exists r, In (Some r) (actors d) /\
                let w := windows d r in
                WindowManager.is_normal w = true /\
                win_id w = info_id rec /\ win_title w = info_title rec /\
                win_wm_class w = info_wm_class rec /\
                info_workspace rec = match ws_of w with Some i => i | None => -1 end /\
                (info_focused rec = true <-> WindowManager._getFocusedWindow d = Some r))
           (getWindows_records ws_of d).
Proof.
  intros ws_of d. unfold getWindows_records.
  generalize (WindowManager._getFocusedWindow d) as f. intros f.
  induction (actors d) as [|[r|] l [IH1 IH2]]; cbn; [split; [reflexivity|constructor]| |].
  - unfold window_record. cbv zeta.
    destruct (WindowManager.is_normal (windows d r)) eqn:En; cbn.
    + split; [cbn; f_equal; exact IH1|].
      constructor.
      * exists r. split; [left; reflexivity|]. repeat split; auto.
        -- destruct f as [f|]; [|discriminate]. intros H.
           apply Nat.eqb_eq in H. subst f. reflexivity.
        -- intros Hf. subst f. apply Nat.eqb_refl.
      * eapply Forall_impl; [|exact IH2].
        intros rec (r' & Hin & Hrest). exists r'. split; [right; exact Hin|exact Hrest].
    + split; [exact IH1|].
      eapply Forall_impl; [|exact IH2].
      intros rec (r' & Hin & Hrest). exists r'. split; [right; exact Hin|exact Hrest].
  - split; [exact IH1|].
    eapply Forall_impl; [|exact IH2].
    intros rec (r' & Hin & Hrest). exists r'. split; [right; exact Hin|exact Hrest].
Qed.

(** ** [takeScreenshotSync] and [disable] *)

Lemma string_append_assoc :
  forall s1 s2 s3 : string, ((s1 ++ s2) ++ s3 = s1 ++ (s2 ++ s3))%string.
Proof. induction s1 as [|c s1 IH]; intros; cbn; [reflexivity|now rewrite IH]. Qed.

(** Calls of [takeScreenshotSync] made before the main loop gets idle,
    one per outcome of the deletion in [oks]. *)
Fixpoint take_n (home : string) (oks : list bool) (s : shot_state)
  : list string * shot_state :=
  match oks with
  | [] => ([], s)
  | ok :: oks' =>
      let '(p, s1) := takeScreenshotSync home ok s in
      let '(ps, s2) := take_n home oks' s1 in
      (p :: ps, s2)
  end.

(** [takeScreenshotSync] never captures by itself: calls made before the
    idle callbacks run each return [home/.cache/easyspeak/screen.png] and
    queue one capture for that path; a file is left there only if one was
    there before and every deletion failed; the cache directory is not
    touched. *)
Theorem takeScreenshotSync_queues :
  forall (home : string) (oks : list bool) (s : shot_state),
    let '(ps, s') := take_n home oks s in
    ps = repeat (home ++ "/.cache/easyspeak/screen.png")%string (List.length oks) /\
    screen_png_exists s' = screen_png_exists s && forallb negb oks /\
    cache_dir_exists s' = cache_dir_exists s /\
    idle_queue s' = idle_queue s ++ repeat CaptureViaScreenshotClass (List.length oks).
Proof.
  intros home oks. induction oks as [|ok oks IH]; intros s; cbn -[shot_path].
  - rewrite app_nil_r, andb_true_r. repeat split.
  - set (s1 := if ok then mkShotState (cache_dir_exists s) false (idle_queue s) else s).
    specialize (IH (mkShotState (cache_dir_exists s1) (screen_png_exists s1)
                      (idle_queue s1 ++ [CaptureViaScreenshotClass]))).
    destruct (take_n home oks _) as [ps s'] eqn:E. cbn in IH.
    destruct IH as (Hps & Hex & Hdir & Hq).
    assert (Hs1 : cache_dir_exists s1 = cache_dir_exists s /\ idle_queue s1 = idle_queue s /\
                  screen_png_exists s1 = screen_png_exists s && negb ok)
      by (unfold s1; destruct ok; cbn; rewrite ?andb_true_r, ?andb_false_r; auto).
    destruct Hs1 as (Hd1 & Hq1 & He1).
    split; [rewrite Hps; unfold shot_path, cacheDir; rewrite string_append_assoc; reflexivity|].
    split; [rewrite Hex, He1, andb_assoc; reflexivity|].
    split; [rewrite Hdir; exact Hd1|].
    rewrite Hq, Hq1, <- app_assoc. reflexivity.
Qed.

Lemma skipn_length_app :
  forall (A : Type) (l l' : list A), skipn (List.length l) (l ++ l') = l'.
Proof. intros A l l'. induction l as [|a l IH]; cbn; auto. Qed.

(** [disable] drops the overlay object and unexports the interface; the
    only effect it has is destroying a shown overlay.  In particular a drag
    in progress is dropped without any button release.  A second [disable]
    does nothing, and [enable] afterwards starts from a fresh
    [GridOverlay], with no drag and no virtual device. *)
Theorem disable_effects :
  forall x : extension,
    let '(x1, effs) := disable x in
    ext_grid x1 = None /\ ext_exported x1 = false /\
    effs = match ext_grid x with Some g => hide_effects (container g) | None => [] end /\
    (forall t b, ~ In (ButtonEvent t b RELEASED) effs) /\
    snd (disable x1) = [] /\
    ext_grid (enable x1) = Some new_GridOverlay /\
    dragging new_GridOverlay = false /\ pointer new_GridOverlay = false.
Proof.
  intros [[g|] ex wm sm]; unfold disable; cbn [ext_grid].
  - destruct_grid g;
      cbv [GridOverlay.hide bind get ret emit modify set_container hide_effects];
      cbn [container trace]; rewrite ?skipn_length_app, ?skipn_all;
      (split; [reflexivity|]); (split; [reflexivity|]); (split; [reflexivity|]);
      (split; [intros t b' H; repeat (destruct H as [H|H]; [discriminate|]); contradiction|]);
      repeat split.
  - repeat split. intros t b' H. contradiction.
Qed.

(** ** Witnesses for the further properties *)

Lemma rightClick_middleClick_sequences_witness :
  device_available (env_at 1000 true) shown_grid /\
  exists g', GridOverlay.rightClick (env_at 1000 true) 7 8 shown_grid = Ok tt g' /\
    container g' = None /\
    trace g' = [ContainerDestroyed; AbsoluteMotion 1000 7 8;
                ButtonEvent 6000 BUTTON_SECONDARY PRESSED;
                ButtonEvent 11000 BUTTON_SECONDARY RELEASED].
Proof.
  split; [right; reflexivity|].
  destruct (proj1 (rightClick_middleClick_sequences (env_at 1000 true) 7 8 shown_grid
                     (or_intror eq_refl))) as [g' (H1 & H2 & _ & H3)].
  exists g'. split; [exact H1|]. split; [exact H2|]. rewrite H3. reflexivity.
Defined.

Lemma moveTo_only_moves_witness :
  device_available (env_at 1000 false) dragging_grid /\
  exists g', GridOverlay.moveTo (env_at 1000 false) 30 40 dragging_grid = Ok tt g' /\
    container g' = Some (mkRect 0 0 1920 1080) /\ dragging g' = true.
Proof.
  split; [left; reflexivity|].
  destruct (moveTo_only_moves (env_at 1000 false) 30 40 dragging_grid (or_introl eq_refl))
    as [g' (H1 & H2 & _ & H3 & _)].
  exists g'. split; [exact H1|]. split; [exact H2|exact H3].
Defined.

Lemma show_replaces_overlay_witness :
  container shown_grid <> None /\
  exists g', GridOverlay.show (env_at 1000 true) 100 100 shown_grid = Ok tt g' /\
    trace g' = [ContainerDestroyed; ContainerAdded (mkRect 0 0 1920 1080)].
Proof.
  split; [discriminate|].
  exact (show_replaces_overlay (env_at 1000 true) 100 100 shown_grid ltac:(discriminate)).
Defined.

Lemma scroll_nonpositive_clicks_witness :
  0 <= 0 /\ device_available (env_at 1000 true) shown_grid /\
  exists g', GridOverlay.scroll (env_at 1000 true) 5 6 "up" 0 shown_grid = Ok tt g' /\
    container g' = None /\
    trace g' = [ContainerDestroyed; AbsoluteMotion 1000 5 6].
Proof.
  split; [lia|]. split; [right; reflexivity|].
  exact (scroll_nonpositive_clicks (env_at 1000 true) 5 6 "up" 0 shown_grid
           ltac:(lia) (or_intror eq_refl)).
Defined.



Lemma draw_labels_inside_witness :
  (0 <= 1920)%Q /\ (0 <= 1080)%Q /\
  List.length (Overlay._draw (0, 0, 1920, 1080)%Q) = 18%nat /\
  label_texts (Overlay._draw (0, 0, 1920, 1080)%Q)
    = ["1"; "2"; "3"; "4"; "5"; "6"; "7"; "8"; "9"]%string.
Proof.
  split; [close_small_Q|]. split; [close_small_Q|].
  destruct (draw_labels_inside 0 0 1920 1080 ltac:(close_small_Q) ltac:(close_small_Q))
    as (H1 & H2 & _).
  split; [exact H1|exact H2].
Defined.

Lemma draw_grid_lines_inside_witness :
  (4 <= 1920)%Q /\ (4 <= 1080)%Q /\
  Forall (fun c => match c with
                   | Overlay.StWidget Overlay.GRID_LINE x y w h =>
                       (0 <= x)%Q /\ (x + w <= 0 + 1920)%Q /\
                       (0 <= y)%Q /\ (y + h <= 0 + 1080)%Q
                   | _ => True
                   end)
    (Overlay._draw (0, 0, 1920, 1080)%Q).
Proof.
  split; [close_small_Q|]. split; [close_small_Q|].
  exact (draw_grid_lines_inside 0 0 1920 1080 ltac:(close_small_Q) ltac:(close_small_Q)).
Defined.

(** A drag started by a D-Bus call on a fresh overlay. *)
Definition drag_calls : list (env * grid_call) := [(env_at 1000 true, StartDrag 10 10)].

Lemma startDrag_while_dragging_witness :
  dragging (snd (run_calls drag_calls new_GridOverlay)) = true /\
  exists g',
    GridOverlay.startDrag (env_at 50000 false) 30 40
      (snd (run_calls drag_calls new_GridOverlay)) = Ok tt g' /\
    dragging g' = true /\
    trace g' = [AbsoluteMotion 1000 10 10; ButtonEvent 6000 BUTTON_PRIMARY PRESSED;
                AbsoluteMotion 50000 30 40; ButtonEvent 55000 BUTTON_PRIMARY PRESSED].
Proof.
  split; [reflexivity|].
  destruct (startDrag_while_dragging drag_calls (env_at 50000 false) 30 40 eq_refl)
    as (g' & H1 & H2 & _ & H3).
  exists g'. split; [exact H1|]. split; [exact H2|]. rewrite H3. reflexivity.
Defined.
